(** * questdb-connect: the SQLAlchemy dialect and DBAPI glue, embedded in Rocq

  The development follows the two modules of the package:
  - [dialect]: the table engine ([QDBTableEngine]), the identifier quoter
    ([_quote_identifier]), the DDL compiler ([QDBDDLCompiler]) and the
    schema inspector ([QDBInspector]) of [questdb_connect/dialect.py];
  - [dbapi]: the cursor wrapper of [questdb_connect/__init__.py].

  Python [str] values are Rocq strings, read as sequences of characters;
  exceptions are values of [PyError] carried by [Result]; an attribute
  that is assigned to (the memo of the table engine, the column list of
  a table) is threaded through as explicit state. *)

From Stdlib Require Import String Ascii List Arith Lia Bool.
From stdpp Require Import base strings list gmap pretty.

Open Scope string_scope.

(** ** Python values the code relies on *)

Module Py.

(** The exceptions raised by the modelled code. *)
Inductive PyError : Type :=
| ArgumentError (msg : string)
| NoResultFound (msg : string)
| KeyError (key : string)
| AttributeError (attr : string)
| Exception (msg : string)
| UnknownTypeError (type_name : string).

(** A call either returns a value or raises. *)
Inductive Result (A : Type) : Type :=
| Ok (a : A)
| Raise (e : PyError).
Arguments Ok {A} a.
Arguments Raise {A} e.

Definition bind {A B} (r : Result A) (k : A -> Result B) : Result B :=
  match r with
  | Ok a => k a
  | Raise e => Raise e
  end.

(** A list comprehension whose element expression may raise: elements
    are evaluated left to right and the first exception escapes. *)
Fixpoint comprehension {A B} (f : A -> Result B) (xs : list A)
  : Result (list B) :=
  match xs with
  | [] => Ok []
  | x :: rest =>
      bind (f x) (fun y =>
      bind (comprehension f rest) (fun ys => Ok (y :: ys)))
  end.

(** [s[i]] for an index known to be non-negative. *)
Definition index (s : string) (i : nat) : option ascii := String.get i s.

(** [s[first:last]] for non-negative bounds; empty when [last <= first]. *)
Definition slice (s : string) (first last : nat) : string :=
  String.substring first (last - first) s.

(** Truth value of a string: empty strings are falsy. *)
Definition truthy_str (s : string) : bool :=
  match s with
  | EmptyString => false
  | String _ _ => true
  end.

(** Truth value of an optional sequence argument ([None] and the empty
    sequence are both falsy). *)
Definition truthy_seq {A} (xs : option (list A)) : bool :=
  match xs with
  | None => false
  | Some [] => false
  | Some (_ :: _) => true
  end.

(** [x in xs] for an optional sequence of strings that is truthy. *)
Definition contains (xs : option (list string)) (x : string) : bool :=
  match xs with
  | None => false
  | Some l => bool_decide (x ∈ l)
  end.

(** An ASCII rendering of [str.upper], used to run the model on
    concrete inputs. *)
Definition ascii_upper (c : ascii) : ascii :=
  let n := nat_of_ascii c in
  if ((97 <=? n)%nat && (n <=? 122)%nat)%bool then ascii_of_nat (n - 32) else c.

Fixpoint upper (s : string) : string :=
  match s with
  | EmptyString => EmptyString
  | String c rest => String (ascii_upper c) (upper rest)
  end.

End Py.
Import Py.

(** ** questdb_connect.types *)

Module types.

(** Modelled from the spec: the [PartitionBy] enumeration, which lives
    in [questdb_connect/types.py], a module that is not embedded here.
    The data model lists its members as NONE, YEAR, MONTH, WEEK, DAY,
    HOUR; a member's [name] is its identifier. *)
Inductive PartitionBy : Type := NONE | YEAR | MONTH | WEEK | DAY | HOUR.

#[global] Instance PartitionBy_eq_dec : EqDecision PartitionBy.
Proof. solve_decision. Defined.

(** [member.name] *)
Definition name (p : PartitionBy) : string :=
  match p with
  | NONE => "NONE"
  | YEAR => "YEAR"
  | MONTH => "MONTH"
  | WEEK => "WEEK"
  | DAY => "DAY"
  | HOUR => "HOUR"
  end.

Definition members : list PartitionBy := [NONE; YEAR; MONTH; WEEK; DAY; HOUR].

(** [PartitionBy[key]]: lookup of a member by its name, [KeyError]
    otherwise. *)
Definition getitem (key : string) : Result PartitionBy :=
  match List.find (fun p => String.eqb (name p) key) members with
  | Some p => Ok p
  | None => Raise (KeyError key)
  end.

(** The type classes the package exports (the import list of
    [questdb_connect/__init__.py]).  The constructors live in a module
    of their own because some of them are named like Rocq's. *)
Module QDB.
Inductive QDBType : Type :=
  | Boolean | Byte | Short | Int | Long | Float | Double
  | Symbol | String | Char | UUID | Date | Timestamp | Long256
  | GeohashByte | GeohashShort | GeohashInt | GeohashLong.
End QDB.
Abbreviation QDBType := QDB.QDBType.

#[global] Instance QDBType_eq_dec : EqDecision QDBType.
Proof. solve_decision. Defined.

Definition QUESTDB_TYPES : list QDBType :=
  [ QDB.Boolean; QDB.Byte; QDB.Short; QDB.Int; QDB.Long; QDB.Float;
    QDB.Double; QDB.Symbol; QDB.String; QDB.Char; QDB.UUID; QDB.Date;
    QDB.Timestamp; QDB.Long256; QDB.GeohashByte; QDB.GeohashShort;
    QDB.GeohashInt; QDB.GeohashLong ].

Section Registry.
(** The database type name of each type class; the names themselves
    are left open by the specification. *)
Variable database_type_name : QDBType -> string.

(** Modelled from the spec: the type descriptor of a type, which lives
    in [questdb_connect/types.py], a module that is not embedded here.
    A descriptor pairs a database type name with a type. *)
Definition type_descriptor (T : QDBType) : string * QDBType :=
  (database_type_name T, T).

(** Modelled from the spec: the type registry, which lives in
    [questdb_connect/types.py], a module that is not embedded here.  The
    registry is the static name -> type table filled from the
    descriptors of [QUESTDB_TYPES]. *)
Definition registry : gmap string QDBType :=
  list_to_map (type_descriptor <$> QUESTDB_TYPES).

(** Modelled from the spec: [resolve_type_from_name], which lives in
    [questdb_connect/types.py], a module that is not embedded here.  A
    raw name resolves to the type registered under it; a name with no
    registry entry fails with an unknown-type error. *)
Definition resolve_type_from_name (raw_name : string) : Result QDBType :=
  match registry !! raw_name with
  | Some T => Ok T
  | None => Raise (UnknownTypeError raw_name)
  end.
End Registry.

(** One naming of the registry, used to run the model on concrete
    inputs. *)
Definition sample_type_name (T : QDBType) : string :=
  match T with
  | QDB.Boolean => "BOOLEAN" | QDB.Byte => "BYTE" | QDB.Short => "SHORT"
  | QDB.Int => "INT" | QDB.Long => "LONG" | QDB.Float => "FLOAT"
  | QDB.Double => "DOUBLE" | QDB.Symbol => "SYMBOL"
  | QDB.String => "STRING" | QDB.Char => "CHAR" | QDB.UUID => "UUID"
  | QDB.Date => "DATE" | QDB.Timestamp => "TIMESTAMP"
  | QDB.Long256 => "LONG256" | QDB.GeohashByte => "GEOHASH(8b)"
  | QDB.GeohashShort => "GEOHASH(3c)" | QDB.GeohashInt => "GEOHASH(6c)"
  | QDB.GeohashLong => "GEOHASH(12c)"
  end.

End types.

(** ** questdb_connect.common *)

Module common.

Definition public_prefix : string := "public.".

(** Scan the text left to right; [skip] counts the characters of a
    matched prefix that are still to be dropped. *)
Fixpoint strip_public (skip : nat) (query : string) : string :=
  match query with
  | EmptyString => EmptyString
  | String c rest =>
      match skip with
      | S k => strip_public k rest
      | O =>
          if String.prefix public_prefix query
          then strip_public (String.length public_prefix - 1) rest
          else String c (strip_public 0 rest)
      end
  end.

(** Modelled from the spec: [remove_public_schema], which lives in
    [questdb_connect/common.py], a module that is not embedded here.  The
    query text is rewritten by stripping the reserved
    namespace-qualification prefix [public.] wherever it occurs; no other
    qualification is touched. *)
Definition remove_public_schema (query : string) : string :=
  strip_public 0 query.

(** Does the reserved prefix occur anywhere in the text? *)
Fixpoint occurs_public (query : string) : bool :=
  String.prefix public_prefix query ||
  match query with
  | EmptyString => false
  | String _ rest => occurs_public rest
  end.

End common.

(** ** questdb_connect.dialect *)

Module dialect.
Import types.

(** *** Connection URI *)

Definition default_database : string := "main".

(** [connection_uri(host, port, username, password, database)]: the
    arguments are formatted into the text as they are; [port] is an
    integer and is rendered in decimal. *)
Definition connection_uri (host : string) (port : Z)
  (username password database : string) : string :=
  "questdb://" +:+ username +:+ ":" +:+ password +:+ "@" +:+ host +:+ ":" +:+
  pretty port +:+ "/" +:+ database.

(** *** QDBTableEngine *)

Module QDBTableEngine.

(** The attributes set by [__init__]; [compiled] is the memo of
    [get_table_suffix] ([None] until the first call).  [partition_by]
    is optional because the code tests its truth value before comparing
    it with [PartitionBy.NONE]. *)
Record t : Type := {
  name : string;
  ts_col_name : option string;
  partition_by : option PartitionBy;
  is_wal : bool;
  compiled : option string
}.

(** [QDBTableEngine(table_name, ts_col_name, partition_by, is_wal)] *)
Definition init (table_name : string) (ts_col_name : option string)
  (partition_by : option PartitionBy) (is_wal : bool) : t :=
  {| name := table_name;
     ts_col_name := ts_col_name;
     partition_by := partition_by;
     is_wal := is_wal;
     compiled := None |}.

(** The defaults of [__init__]. *)
Definition default_ts_col_name : option string := None.
Definition default_partition_by : option PartitionBy := Some DAY.
Definition default_is_wal : bool := true.

(** [self.compiled = s] *)
Definition set_compiled (s : string) (self : t) : t :=
  {| name := name self;
     ts_col_name := ts_col_name self;
     partition_by := partition_by self;
     is_wal := is_wal self;
     compiled := Some s |}.

(** [self.ts_col_name is not None] *)
Definition has_ts (self : t) : bool :=
  match ts_col_name self with
  | Some _ => true
  | None => false
  end.

(** [self.partition_by and self.partition_by != PartitionBy.NONE];
    the members of a plain enumeration are all truthy. *)
Definition is_partitioned (self : t) : bool :=
  match partition_by self with
  | Some p => negb (bool_decide (p = NONE))
  | None => false
  end.

(** [self.partition_by.name], read only where [is_partitioned] holds. *)
Definition partition_by_name (self : t) : string :=
  match partition_by self with
  | Some p => types.name p
  | None => ""
  end.

Definition msg_no_timestamp : string :=
  "Designated timestamp must be specified for partitioned table".
Definition msg_no_partition : string :=
  "Designated timestamp and partition by must be specified for WAL table".

(** [get_table_suffix]: the result of the call and the descriptor after
    it.  [self.compiled] is assigned before the checks run and is
    extended clause by clause; [c0], [c1], [c2], [c3] are its successive
    values, so a call that raises leaves the clauses built so far in the
    memo. *)
Definition get_table_suffix (self : t) : Result string * t :=
  match compiled self with
  | Some memo => (Ok memo, self)
  | None =>
      let c0 := "" in
      let has_ts := has_ts self in
      let is_partitioned := is_partitioned self in
      let c1 :=
        match ts_col_name self with
        | Some ts => c0 +:+ "TIMESTAMP(" +:+ ts +:+ ")"
        | None => c0
        end in
      let wal_clause (c2 : string) : Result string * t :=
        if is_wal self then
          if negb is_partitioned then
            (Raise (ArgumentError msg_no_partition), set_compiled c2 self)
          else
            let c3 := if is_wal self then c2 +:+ " WAL"
                      else c2 +:+ " BYPASS WAL" in
            (Ok c3, set_compiled c3 self)
        else (Ok c2, set_compiled c2 self) in
      if is_partitioned then
        if negb has_ts then
          (Raise (ArgumentError msg_no_timestamp), set_compiled c1 self)
        else
          wal_clause (c1 +:+ " PARTITION BY " +:+ partition_by_name self)
      else wal_clause c1
  end.

(** The descriptor after [n] calls of [get_table_suffix] whose results
    were ignored. *)
Fixpoint after_calls (n : nat) (self : t) : t :=
  match n with
  | O => self
  | S k => after_calls k (snd (get_table_suffix self))
  end.

(** The validity invariants of the data model. *)
Definition valid (self : t) : Prop :=
  (is_partitioned self = true -> has_ts self = true) /\
  (is_wal self = true -> is_partitioned self = true).

Definition invalid (self : t) : Prop :=
  (is_partitioned self = true /\ has_ts self = false) \/
  (is_wal self = true /\ is_partitioned self = false).

(** The clauses that apply to a descriptor, in the documented order. *)
Definition applicable_clauses (self : t) : list string :=
  match ts_col_name self with
  | Some ts => ["TIMESTAMP(" +:+ ts +:+ ")"]
  | None => []
  end ++
  (if is_partitioned self
   then ["PARTITION BY " +:+ partition_by_name self] else []) ++
  (if is_wal self then ["WAL"] else []).

End QDBTableEngine.

(** *** Identifier quoting *)

Definition _QUOTES : list ascii := ["'"%char; "034"%char].

Definition in_QUOTES (c : option ascii) : bool :=
  match c with
  | Some c => bool_decide (c ∈ _QUOTES)
  | None => false
  end.

(** [_quote_identifier]; [None] is Python's [None]. *)
Definition _quote_identifier (identifier : string) : option string :=
  if negb (truthy_str identifier) then None
  else
    let first := 0 in
    let last := String.length identifier in
    let first :=
      if in_QUOTES (index identifier first) then first + 1 else first in
    let last :=
      if in_QUOTES (index identifier (last - 1)) then last - 1 else last in
    Some ("'" +:+ slice identifier first last +:+ "'").

(** A structural reading of the quoter: drop one leading quote character
    if there is one, drop one trailing quote character if there is one. *)
Definition is_quote (c : ascii) : bool := bool_decide (c ∈ _QUOTES).

Definition strip_leading_quote (s : string) : string :=
  match s with
  | String c rest => if is_quote c then rest else s
  | EmptyString => EmptyString
  end.

Fixpoint strip_trailing_quote (s : string) : string :=
  match s with
  | EmptyString => EmptyString
  | String c EmptyString => if is_quote c then EmptyString else s
  | String c rest => String c (strip_trailing_quote rest)
  end.

(** *** Tables and columns of the host framework *)

(** A column type is either one of the package's types (an instance of
    [QDBTypeMixin]) or some other type of the host framework. *)
Inductive ColumnType : Type :=
| QDBColumn (T : QDBType)
| ForeignColumn (type_name : string).

(** [sqla.Column(name, type, primary_key=...)]; [primary_key] defaults
    to [False]. *)
Record Column : Type := {
  col_name : string;
  col_type : ColumnType;
  primary_key : bool
}.

(** The attributes of a table that the code reads or assigns;
    [engine] is absent until a table engine is attached, and
    [metadata] lists the tables registered in the table's [MetaData]. *)
Record Table : Type := {
  tbl_name : string;
  fullname : string;
  columns : list Column;
  engine : option QDBTableEngine.t;
  metadata : list string
}.

(** [table.append_column(column)] *)
Definition append_column (column : Column) (table : Table) : Table :=
  {| tbl_name := tbl_name table;
     fullname := fullname table;
     columns := columns table ++ [column];
     engine := engine table;
     metadata := metadata table |}.

(** [table.engine = e] *)
Definition set_engine (e : QDBTableEngine.t) (table : Table) : Table :=
  {| tbl_name := tbl_name table;
     fullname := fullname table;
     columns := columns table;
     engine := Some e;
     metadata := metadata table |}.

(** [table.metadata = sqla.MetaData()] *)
Definition reset_metadata (table : Table) : Table :=
  {| tbl_name := tbl_name table;
     fullname := fullname table;
     columns := columns table;
     engine := engine table;
     metadata := [] |}.

(** [table] with [cols] appended to its columns. *)
Definition extend_columns (cols : list Column) (table : Table) : Table :=
  {| tbl_name := tbl_name table;
     fullname := fullname table;
     columns := columns table ++ cols;
     engine := engine table;
     metadata := metadata table |}.

(** [QDBTableEngine._set_parent(parent)]: [parent.engine = self] *)
Definition _set_parent (self : QDBTableEngine.t) (parent : Table) : Table :=
  set_engine self parent.

(** *** QDBDDLCompiler *)

Definition msg_no_schemas : string := "QuestDB does not support SCHEMAS".

Definition visit_create_schema {A B : Type} (create : A) (kw : B)
  : Result string :=
  Raise (Exception msg_no_schemas).

Definition visit_drop_schema {A B : Type} (drop : A) (kw : B)
  : Result string :=
  Raise (Exception msg_no_schemas).

(** A [CreateTable] element: the table and, in [create_columns], the
    columns behind [create.columns] ([c.element] for each [c]). *)
Record CreateTable : Type := {
  element : Table;
  create_columns : list Column
}.

Definition with_engine (e : QDBTableEngine.t) (create : CreateTable)
  : CreateTable :=
  {| element := set_engine e (element create);
     create_columns := create_columns create |}.

Definition msg_bad_column_type : string :=
  "Column type is not a valid QuestDB type".

(** The text up to and including the closing parenthesis. *)
Definition ddl_head (table_fullname : string) (specs : list string) : string :=
  "CREATE TABLE '" +:+ table_fullname +:+ "' (" +:+
  String.concat ", " specs +:+ ") ".

Section QDBDDLCompiler.
(** [type.column_spec(column_name)], rendered by the type classes. *)
Variable column_spec : QDBType -> string -> string.

Definition get_column_specification (column : Column) : Result string :=
  match col_type column with
  | QDBColumn T => Ok (column_spec T (col_name column))
  | ForeignColumn _ => Raise (ArgumentError msg_bad_column_type)
  end.

(** [visit_create_table]: the result of the call and the element after
    it (the call may fill the memo of the table's engine). *)
Definition visit_create_table (create : CreateTable)
  : Result string * CreateTable :=
  let table := element create in
  let create_table := "CREATE TABLE '" +:+ fullname table +:+ "' (" in
  match comprehension get_column_specification (create_columns create) with
  | Raise e => (Raise e, create)
  | Ok specs =>
      let create_table := create_table +:+ String.concat ", " specs in
      match engine table with
      | None => (Raise (AttributeError "engine"), create)
      | Some e =>
          let (suffix, e') := QDBTableEngine.get_table_suffix e in
          (Py.bind suffix (fun suffix => Ok (create_table +:+ ") " +:+ suffix)),
           with_engine e' create)
      end
  end.

(** A column carries a QuestDB type and [spec] is its specification. *)
Definition has_spec (column : Column) (spec : string) : Prop :=
  exists T, col_type column = QDBColumn T /\
            spec = column_spec T (col_name column).

(** A column whose type is not a member of the database's type set. *)
Definition is_foreign (column : Column) : Prop :=
  exists type_name, col_type column = ForeignColumn type_name.
End QDBDDLCompiler.

(** *** QDBInspector *)

(** A row of [tables() WHERE name = '<table_name>']: the three
    attributes [reflect_table] reads. *)
Record TableAttrs : Type := {
  designatedTimestamp : option string;
  partitionBy : string;
  walEnabled : bool
}.

(** A row of [table_columns('<table_name>')]: [row[0]] is the column
    name and [row[1]] the raw type name. *)
Definition ColumnRow : Type := string * string.

(** [self.bind]: what the two introspection queries return for a table
    name.  A result set is the list of its rows and has the truth value
    of that list. *)
Record Bind : Type := {
  execute_tables : string -> list TableAttrs;
  execute_table_columns : string -> list ColumnRow
}.

Definition msg_no_table (table_name : string) : string :=
  "Table '" +:+ table_name +:+ "' does not exist".

(** The values stored in the dictionaries of [get_columns]. *)
Inductive MetaValue : Type :=
| MStr (s : string)
| MType (T : QDBType)
| MBool (b : bool).

Section QDBInspector.
(** [types.resolve_type_from_name] and [str.upper]. *)
Variable resolve_type_from_name : string -> Result QDBType.
Variable str_upper : string -> string.

(** [include_columns and col_name not in include_columns], or
    [exclude_columns and col_name in exclude_columns]: the row is
    skipped. *)
Definition skipped (include_columns exclude_columns : option (list string))
  (col_name : string) : bool :=
  (truthy_seq include_columns && negb (contains include_columns col_name))
  || (truthy_seq exclude_columns && contains exclude_columns col_name).

(** [col_ts_name and col_ts_name.upper() == col_name.upper()] *)
Definition is_designated (col_ts_name : option string) (col_name : string)
  : bool :=
  match col_ts_name with
  | Some ts =>
      truthy_str ts && bool_decide (str_upper ts = str_upper col_name)
  | None => false
  end.

(** The column reflected from [row] is [column]. *)
Definition reflects (col_ts_name : string) (row : ColumnRow) (column : Column)
  : Prop :=
  col_name column = fst row /\
  (exists T, resolve_type_from_name (snd row) = Ok T /\
             col_type column = QDBColumn T) /\
  (primary_key column = true <-> str_upper col_ts_name = str_upper (fst row)).

(** The rows of the second query that the filters let through. *)
Definition kept_rows (include_columns exclude_columns : option (list string))
  (rows : list ColumnRow) : list ColumnRow :=
  List.filter
    (fun row => negb (skipped include_columns exclude_columns (fst row))) rows.

(** [column] is the column the loop builds for [row]. *)
Definition reflected_from (col_ts_name : option string) (row : ColumnRow)
  (column : Column) : Prop :=
  col_name column = fst row /\
  (exists T, resolve_type_from_name (snd row) = Ok T /\
             col_type column = QDBColumn T) /\
  primary_key column = is_designated col_ts_name (fst row).

(** The loop over the rows of the second query. *)
Fixpoint reflect_rows (col_ts_name : option string)
  (include_columns exclude_columns : option (list string))
  (rows : list ColumnRow) (table : Table) : Result unit * Table :=
  match rows with
  | [] => (Ok tt, table)
  | row :: rest =>
      let col_name := fst row in
      if skipped include_columns exclude_columns col_name then
        reflect_rows col_ts_name include_columns exclude_columns rest table
      else
        match resolve_type_from_name (snd row) with
        | Raise e => (Raise e, table)
        | Ok col_type =>
            let column :=
              if is_designated col_ts_name col_name
              then {| col_name := col_name; col_type := QDBColumn col_type;
                      primary_key := true |}
              else {| col_name := col_name; col_type := QDBColumn col_type;
                      primary_key := false |} in
            reflect_rows col_ts_name include_columns exclude_columns rest
              (append_column column table)
        end
  end.

(** [reflect_table]: the result of the call and the table after it. *)
Definition reflect_table (self_bind : Bind) (table : Table)
  (include_columns exclude_columns : option (list string))
  : Result unit * Table :=
  let table_name := tbl_name table in
  match execute_tables self_bind table_name with
  | [] => (Raise (NoResultFound (msg_no_table table_name)), table)
  | table_attrs :: _ =>
      let col_ts_name := designatedTimestamp table_attrs in
      match types.getitem (partitionBy table_attrs) with
      | Raise e => (Raise e, table)
      | Ok partition_by =>
          let is_wal := if walEnabled table_attrs then true else false in
          match reflect_rows col_ts_name include_columns exclude_columns
                  (execute_table_columns self_bind table_name) table with
          | (Raise e, table) => (Raise e, table)
          | (Ok _, table) =>
              let table :=
                set_engine
                  (QDBTableEngine.init table_name col_ts_name
                     (Some partition_by) is_wal) table in
              (Ok tt, reset_metadata table)
          end
      end
  end.

(** [reflecttable], the SQLAlchemy 1.3 entry point: [include_columns]
    is mandatory and [exclude_columns] defaults to the empty tuple. *)
Definition reflecttable (self_bind : Bind) (table : Table)
  (include_columns : option (list string))
  (exclude_columns : option (list string)) : Result unit * Table :=
  reflect_table self_bind table include_columns exclude_columns.

Definition reflecttable_default_exclude : option (list string) := Some [].

(** The dictionary built for one row of [get_columns]. *)
Definition column_dict (row : ColumnRow) : Result (gmap string MetaValue) :=
  Py.bind (resolve_type_from_name (snd row)) (fun T =>
  Ok (<["name" := MStr (fst row)]>
      (<["type" := MType T]>
      (<["nullable" := MBool true]>
      (<["autoincrement" := MBool false]>
      (<["persisted" := MBool true]> ∅)))))).

Definition get_columns (self_bind : Bind) (table_name : string)
  : Result (list (gmap string MetaValue)) :=
  match execute_table_columns self_bind table_name with
  | [] => Raise (NoResultFound (msg_no_table table_name))
  | result_set => comprehension column_dict result_set
  end.

(** The dictionary [dict] describes [row]. *)
Definition describes (row : ColumnRow) (dict : gmap string MetaValue) : Prop :=
  dict !! "name" = Some (MStr (fst row)) /\
  (exists T, resolve_type_from_name (snd row) = Ok T /\
             dict !! "type" = Some (MType T)) /\
  dict !! "nullable" = Some (MBool true) /\
  dict !! "autoincrement" = Some (MBool false) /\
  dict !! "persisted" = Some (MBool true).
End QDBInspector.

(** The dictionary and the column say the same about name and type. *)
Definition same_name_and_type (column : Column)
  (dict : gmap string MetaValue) : Prop :=
  dict !! "name" = Some (MStr (col_name column)) /\
  exists T, col_type column = QDBColumn T /\ dict !! "type" = Some (MType T).

End dialect.

(** ** questdb_connect (the DBAPI module) *)

Module dbapi.

Section Cursor.
(** [psycopg2.extensions.cursor.execute], the method of the base class:
    it receives the query text and the bound variables. *)
Context {Vars R : Type}.
Variable super_execute : string -> Vars -> R.

(** [Cursor.execute] *)
Definition execute (query : string) (vars : Vars) : R :=
  super_execute (common.remove_public_schema query) vars.
End Cursor.

(** The values a caller passes as keyword arguments of [connect]. *)
Inductive PyVal : Type :=
| VNone
| VStr (s : string)
| VInt (n : Z).

(** Truth value of an argument: [None], the empty string and zero are
    falsy. *)
Definition truthy (v : PyVal) : bool :=
  match v with
  | VNone => false
  | VStr s => truthy_str s
  | VInt n => negb (Z.eqb n 0)
  end.

(** [kwargs.get(key) or default] *)
Definition get_or (kwargs : gmap string PyVal) (key : string)
  (default : PyVal) : PyVal :=
  match kwargs !! key with
  | Some v => if truthy v then v else default
  | None => default
  end.

(** The keyword arguments handed to [psycopg2.connect], besides the
    cursor factory, which is always [cursor_factory]. *)
Record ConnectArgs : Type := {
  host : PyVal;
  port : PyVal;
  user : PyVal;
  password : PyVal;
  database : PyVal
}.

(** The keyword arguments [connect] reads. *)
Definition connect_keys : list string :=
  ["host"; "port"; "username"; "password"; "database"].

Definition connect_args (kwargs : gmap string PyVal) : ConnectArgs :=
  {| host := get_or kwargs "host" (VStr "127.0.0.1");
     port := get_or kwargs "port" (VInt 8812);
     user := get_or kwargs "username" (VStr "admin");
     password := get_or kwargs "password" (VStr "quest");
     database := get_or kwargs "database" (VStr "main") |}.

Section Connect.
(** [psycopg2.connect] and the two cache warm-ups of the
    keywords/functions module; each may raise. *)
Context {Conn : Type}.
Variable psycopg2_connect : ConnectArgs -> Result Conn.
Variable get_keywords_list : Conn -> Result unit.
Variable get_functions_list : Conn -> Result unit.

(** [connect], called with keyword arguments only. *)
Definition connect (kwargs : gmap string PyVal) : Result Conn :=
  Py.bind (psycopg2_connect (connect_args kwargs)) (fun conn =>
  Py.bind (get_keywords_list conn) (fun _ =>
  Py.bind (get_functions_list conn) (fun _ =>
  Ok conn))).
End Connect.

End dbapi.

(** ** Sample data

    Concrete inputs on which the model is run. *)

Module samples.
Import dialect.

Definition sample_column_spec (T : types.QDBType) (column_name : string)
  : string :=
  column_name +:+ " " +:+ types.sample_type_name T.

Definition sample_create : CreateTable :=
  {| element :=
       {| tbl_name := "trades"; fullname := "trades"; columns := [];
          engine := Some (QDBTableEngine.init "trades" (Some "ts")
                            (Some types.DAY) true);
          metadata := [] |};
     create_columns :=
       [ {| col_name := "price"; col_type := QDBColumn types.QDB.Double;
            primary_key := false |};
         {| col_name := "ts"; col_type := QDBColumn types.QDB.Timestamp;
            primary_key := true |} ] |}.

Definition sample_table : Table :=
  {| tbl_name := "trades"; fullname := "trades"; columns := [];
     engine := None; metadata := ["trades"] |}.

Definition sample_bind : Bind :=
  {| execute_tables := fun table_name =>
       if String.eqb table_name "trades"
       then [ {| designatedTimestamp := Some "ts"; partitionBy := "DAY";
                 walEnabled := true |} ]
       else [];
     execute_table_columns := fun table_name =>
       if String.eqb table_name "trades"
       then [ ("price", "DOUBLE"); ("TS", "TIMESTAMP") ]
       else [] |}.

Definition sample_resolve : string -> Result types.QDBType :=
  types.resolve_type_from_name types.sample_type_name.

Definition sample_columns : list Column :=
  [ {| col_name := "price"; col_type := QDBColumn types.QDB.Double;
       primary_key := false |};
    {| col_name := "ts"; col_type := QDBColumn types.QDB.Timestamp;
       primary_key := true |} ].

Definition sample_specs : list string := ["price DOUBLE"; "ts TIMESTAMP"].

Definition sample_events_table : Table :=
  {| tbl_name := "events"; fullname := "events"; columns := [];
     engine := None; metadata := [] |}.

Definition sample_odd_table : Table :=
  {| tbl_name := "odd"; fullname := "odd"; columns := [];
     engine := None; metadata := [] |}.

(** A database with a table without designated timestamp, one of whose
    columns has a type outside the registry, and a table whose
    partition granularity is not a member of the enumeration. *)
Definition sample_bind_plain : Bind :=
  {| execute_tables := fun table_name =>
       if String.eqb table_name "events"
       then [ {| designatedTimestamp := None; partitionBy := "NONE";
                 walEnabled := false |} ]
       else if String.eqb table_name "odd"
       then [ {| designatedTimestamp := Some "ts"; partitionBy := "QUARTER";
                 walEnabled := true |} ]
       else [];
     execute_table_columns := fun table_name =>
       if String.eqb table_name "events"
       then [ ("id", "LONG"); ("payload", "BINARY"); ("kind", "SYMBOL") ]
       else if String.eqb table_name "odd"
       then [ ("ts", "TIMESTAMP") ]
       else [] |}.

End samples.

(** * Properties *)

Import dialect.

(** ** Strings *)

#[local] Arguments String.append !_ _ / : simpl nomatch.

Lemma append_assoc (a b c : string) : (a +:+ b) +:+ c = a +:+ (b +:+ c).
Proof. induction a as [|x a IH]; simpl; [reflexivity | by f_equal]. Qed.

Lemma append_empty_r (a : string) : a +:+ "" = a.
Proof. induction a as [|x a IH]; simpl; [reflexivity | by f_equal]. Qed.

(** ** The table engine *)

Section TableEngine.
Import QDBTableEngine.

Lemma get_table_suffix_memo (self : t) (memo : string) :
  compiled self = Some memo -> get_table_suffix self = (Ok memo, self).
Proof. intros H. unfold get_table_suffix. by rewrite H. Qed.

Lemma set_compiled_compiled (s : string) (self : t) :
  compiled (set_compiled s self) = Some s.
Proof. reflexivity. Qed.

(** The first call always leaves a string in the memo. *)
Lemma get_table_suffix_fills_memo (self : t) :
  compiled self = None ->
  exists s, compiled (snd (get_table_suffix self)) = Some s.
Proof.
  intros H. unfold get_table_suffix. rewrite H.
  destruct (is_partitioned self), (has_ts self), (is_wal self); by eexists.
Qed.

(** Once the memo is set, further calls neither change the descriptor
    nor raise. *)
Lemma after_calls_memo (n : nat) (self : t) (memo : string) :
  compiled self = Some memo -> after_calls n self = self.
Proof.
  intros H. induction n as [|n IH]; simpl; [reflexivity|].
  by rewrite (get_table_suffix_memo _ _ H).
Qed.

Lemma get_table_suffix_fresh_valid (self : t) :
  compiled self = None -> valid self ->
  get_table_suffix self =
    (Ok (String.concat " " (applicable_clauses self)),
     set_compiled (String.concat " " (applicable_clauses self)) self).
Proof.
  destruct self as [tn ts pb wal c]. simpl. intros ->.
  unfold valid, get_table_suffix, applicable_clauses, is_partitioned, has_ts,
    partition_by_name, set_compiled.
  simpl. intros [Hp Hw].
  destruct ts as [ts|], pb as [[]|], wal; simpl in *;
    try (specialize (Hp eq_refl)); try (specialize (Hw eq_refl));
    try discriminate; try reflexivity;
    rewrite ?append_assoc, ?append_empty_r; reflexivity.
Qed.

(** The first call on a descriptor that breaks an invariant raises
    [ArgumentError]. *)
Lemma get_table_suffix_fresh_invalid (self : t) :
  compiled self = None -> invalid self ->
  exists msg, fst (get_table_suffix self) = Raise (ArgumentError msg).
Proof.
  intros Hc Hinv. unfold get_table_suffix. rewrite Hc.
  destruct Hinv as [[Hp Ht] | [Hw Hp]].
  - rewrite Hp, Ht. simpl. by eexists.
  - rewrite Hp, Hw. simpl. by eexists.
Qed.

(** C1: for a descriptor built by the constructor whose fields satisfy
    the validity invariants, every call of [get_table_suffix] (the first
    one and each later one) returns the applicable clauses
    [TIMESTAMP(<col>)], [PARTITION BY <NAME>], [WAL], in that order and
    separated by single spaces; the descriptor with [ts_col_name = "ts"],
    [partition_by = DAY] and [is_wal = True] yields
    ["TIMESTAMP(ts) PARTITION BY DAY WAL"]. *)
Theorem get_table_suffix_valid_clauses (table_name : string)
  (ts : option string) (pb : option types.PartitionBy) (wal : bool) (n : nat) :
  valid (init table_name ts pb wal) ->
  fst (get_table_suffix (after_calls n (init table_name ts pb wal))) =
    Ok (String.concat " " (applicable_clauses (init table_name ts pb wal)))
  /\ fst (get_table_suffix (init table_name (Some "ts") (Some types.DAY) true)) =
      Ok "TIMESTAMP(ts) PARTITION BY DAY WAL".
Proof.
  intros Hv. split; [|reflexivity].
  pose proof (get_table_suffix_fresh_valid
                (init table_name ts pb wal) eq_refl Hv) as Hfirst.
  destruct n as [|n]; simpl.
  - by rewrite Hfirst.
  - rewrite Hfirst. simpl.
    rewrite (after_calls_memo n _ _ (set_compiled_compiled _ _)).
    by rewrite (get_table_suffix_memo _ _ (set_compiled_compiled _ _)).
Qed.

Lemma get_table_suffix_valid_clauses_witness :
  valid (init "trades" (Some "ts") (Some types.DAY) true) /\
  (fst (get_table_suffix
          (after_calls 2 (init "trades" (Some "ts") (Some types.DAY) true))) =
     Ok (String.concat " "
           (applicable_clauses
              (init "trades" (Some "ts") (Some types.DAY) true)))
   /\ fst (get_table_suffix
             (init "trades" (Some "ts") (Some types.DAY) true)) =
       Ok "TIMESTAMP(ts) PARTITION BY DAY WAL").
Proof.
  split.
  - split; intros _; reflexivity.
  - apply (get_table_suffix_valid_clauses "trades" (Some "ts")
             (Some types.DAY) true 2).
    split; intros _; reflexivity.
Defined.

(** C2 does not hold of the code: the descriptor with a designated
    timestamp, [partition_by = NONE] and [is_wal = True] breaks an
    invariant; its first call raises [ArgumentError], but the second
    call returns the partial suffix ["TIMESTAMP(ts)"] left in the memo. *)
Theorem get_table_suffix_invalid_second_call :
  invalid (init "t" (Some "ts") (Some types.NONE) true) /\
  fst (get_table_suffix (init "t" (Some "ts") (Some types.NONE) true)) =
    Raise (ArgumentError msg_no_partition) /\
  fst (get_table_suffix
         (snd (get_table_suffix
                 (init "t" (Some "ts") (Some types.NONE) true)))) =
    Ok "TIMESTAMP(ts)".
Proof. split; [right; split; reflexivity | split; reflexivity]. Qed.

(** C9: after the first call of [get_table_suffix] on a descriptor built
    by the constructor, whether that call returned or raised, the memo
    [compiled] holds a string, and every later call returns that string,
    does not raise and leaves the descriptor as it is. *)
Theorem get_table_suffix_memo_sticks (table_name : string)
  (ts : option string) (pb : option types.PartitionBy) (wal : bool) :
  exists memo : string,
    compiled (snd (get_table_suffix (init table_name ts pb wal))) = Some memo /\
    forall n : nat,
      get_table_suffix
        (after_calls n (snd (get_table_suffix (init table_name ts pb wal)))) =
      (Ok memo, snd (get_table_suffix (init table_name ts pb wal))).
Proof.
  destruct (get_table_suffix_fills_memo (init table_name ts pb wal) eq_refl)
    as [memo Hmemo].
  exists memo. split; [exact Hmemo|].
  intros n. rewrite (after_calls_memo n _ _ Hmemo).
  by apply get_table_suffix_memo.
Qed.

End TableEngine.

(** ** The identifier quoter *)

Lemma substring_whole (s : string) : String.substring 0 (String.length s) s = s.
Proof. induction s as [|c s IH]; simpl; [reflexivity | by f_equal]. Qed.

Ltac case_in_QUOTES :=
  match goal with
  | |- context [in_QUOTES ?x] => destruct (in_QUOTES x)
  | |- context [bool_decide (?c ∈ _QUOTES)] =>
      destruct (bool_decide (c ∈ _QUOTES))
  end.

Lemma strip_trailing_quote_slice (s : string) :
  strip_trailing_quote s =
    if in_QUOTES (index s (String.length s - 1))
    then slice s 0 (String.length s - 1) else s.
Proof.
  unfold index, slice. rewrite Nat.sub_0_r.
  induction s as [|c r IH]; [reflexivity|].
  destruct r as [|d r'].
  - reflexivity.
  - change (strip_trailing_quote (String c (String d r')))
      with (String c (strip_trailing_quote (String d r'))).
    rewrite IH. simpl. rewrite ?Nat.sub_0_r. case_in_QUOTES; reflexivity.
Qed.

Lemma strip_trailing_quote_app (s : string) :
  strip_trailing_quote (s +:+ "'") = s.
Proof.
  induction s as [|c r IH]; [reflexivity|].
  destruct r as [|d r']; [reflexivity|].
  change (strip_trailing_quote (String c (String d r') +:+ "'"))
    with (String c (strip_trailing_quote (String d r' +:+ "'"))).
  by rewrite IH.
Qed.

Lemma quote_identifier_strips (identifier : string) :
  identifier <> "" ->
  _quote_identifier identifier =
    Some ("'" +:+ strip_trailing_quote (strip_leading_quote identifier) +:+ "'").
Proof.
  intros Hne. destruct identifier as [|c r]; [done|].
  unfold _quote_identifier. cbn [truthy_str negb]. do 3 f_equal.
  change (in_QUOTES (index (String c r) 0)) with (is_quote c).
  cbn [strip_leading_quote].
  destruct r as [|d r'].
  - change (in_QUOTES (index (String c "") (String.length (String c "") - 1)))
      with (is_quote c).
    destruct (is_quote c) eqn:E; [reflexivity|].
    cbn [strip_trailing_quote]. rewrite E. reflexivity.
  - replace (index (String c (String d r'))
               (String.length (String c (String d r')) - 1))
      with (index (String d r') (String.length (String d r') - 1))
      by (unfold index; simpl; by rewrite Nat.sub_0_r).
    destruct (is_quote c); rewrite strip_trailing_quote_slice.
    + case_in_QUOTES.
      * unfold slice. simpl. rewrite ?Nat.sub_0_r. reflexivity.
      * unfold slice. simpl. f_equal. apply substring_whole.
    + replace (index (String c (String d r'))
                 (String.length (String c (String d r')) - 1))
        with (index (String d r') (String.length (String d r') - 1))
        by (unfold index; simpl; by rewrite Nat.sub_0_r).
      case_in_QUOTES.
      * unfold slice. simpl. rewrite ?Nat.sub_0_r. reflexivity.
      * unfold slice. simpl. do 2 f_equal. apply substring_whole.
Qed.

(** C10: [_quote_identifier] returns [None] for the empty identifier; a
    non-empty identifier loses at most one leading and at most one
    trailing quote character (single or double) and the remainder is
    wrapped in single quotes; hence quoting the quoted form returns it
    unchanged. *)
Theorem quote_identifier_idempotent (identifier : string) :
  identifier <> "" ->
  _quote_identifier "" = None /\
  _quote_identifier identifier =
    Some ("'" +:+ strip_trailing_quote (strip_leading_quote identifier) +:+ "'") /\
  mbind _quote_identifier (_quote_identifier identifier) =
    _quote_identifier identifier.
Proof.
  intros Hne. split; [reflexivity|]. split; [by apply quote_identifier_strips|].
  rewrite (quote_identifier_strips identifier Hne).
  set (inner := strip_trailing_quote (strip_leading_quote identifier)).
  cbn [mbind option_bind].
  rewrite quote_identifier_strips by done.
  do 3 f_equal.
  change (strip_leading_quote ("'" +:+ inner +:+ "'")) with (inner +:+ "'").
  apply strip_trailing_quote_app.
Qed.

Lemma quote_identifier_idempotent_witness :
  String "034" "my table'" <> "" /\
  (_quote_identifier "" = None /\
   _quote_identifier (String "034" "my table'") =
     Some ("'" +:+ strip_trailing_quote
                     (strip_leading_quote (String "034" "my table'")) +:+ "'") /\
   mbind _quote_identifier (_quote_identifier (String "034" "my table'")) =
     _quote_identifier (String "034" "my table'")).
Proof.
  split; [discriminate|].
  apply (quote_identifier_idempotent (String "034" "my table'")). discriminate.
Defined.

Example quote_identifier_plain : _quote_identifier "col_ts" = Some "'col_ts'".
Proof. reflexivity. Qed.

Example quote_identifier_quoted :
  _quote_identifier (String "034" "col ts'") = Some "'col ts'".
Proof. reflexivity. Qed.

Example quote_identifier_single_quote : _quote_identifier "'" = Some "''".
Proof. reflexivity. Qed.

(** ** The type registry *)

Section Registry.
Import types.
Variable database_type_name : QDBType -> string.
Hypothesis names_distinct : NoDup (database_type_name <$> QUESTDB_TYPES).

Lemma QUESTDB_TYPES_complete (T : QDBType) : T ∈ QUESTDB_TYPES.
Proof. apply list_elem_of_In. destruct T; simpl; tauto. Qed.

Lemma registry_lookup (T : QDBType) :
  registry database_type_name !! database_type_name T = Some T.
Proof.
  unfold registry. apply elem_of_list_to_map_1.
  - by rewrite <- list_fmap_compose.
  - apply (list_elem_of_fmap_2 (type_descriptor database_type_name)).
    apply QUESTDB_TYPES_complete.
Qed.

Lemma registry_lookup_None (raw_name : string) :
  raw_name ∉ (database_type_name <$> QUESTDB_TYPES) ->
  registry database_type_name !! raw_name = None.
Proof.
  intros H. unfold registry. apply not_elem_of_list_to_map_1.
  by rewrite <- list_fmap_compose.
Qed.
End Registry.


Lemma sample_names_distinct :
  NoDup (types.sample_type_name <$> types.QUESTDB_TYPES).
Proof. apply (@bool_decide_unpack _ (NoDup_dec _)). vm_compute. exact I. Qed.


Example resolve_sample_unknown :
  types.resolve_type_from_name types.sample_type_name "BLOB" =
    Raise (UnknownTypeError "BLOB").
Proof. vm_compute. reflexivity. Qed.

(** ** The DDL compiler *)

(** C6: whatever their arguments, [visit_create_schema] and
    [visit_drop_schema] raise the error saying that schemas are not
    supported, and so never return SQL text. *)
Theorem visit_schema_always_raises (A B : Type) (element : A) (kw : B)
  (sql : string) :
  visit_create_schema element kw = Raise (Exception msg_no_schemas) /\
  visit_drop_schema element kw = Raise (Exception msg_no_schemas) /\
  visit_create_schema element kw <> Ok sql /\
  visit_drop_schema element kw <> Ok sql.
Proof. repeat split; discriminate. Qed.

Section DDLCompiler.
Variable column_spec : types.QDBType -> string -> string.

Lemma column_specifications (cols : list Column) (specs : list string) :
  Forall2 (has_spec column_spec) cols specs ->
  comprehension (get_column_specification column_spec) cols = Ok specs.
Proof.
  induction 1 as [|c spec cols specs [T [HT ->]] _ IH]; [reflexivity|].
  simpl. unfold get_column_specification at 1. rewrite HT. simpl.
  by rewrite IH.
Qed.

Lemma column_specifications_foreign (cols : list Column) :
  Exists is_foreign cols ->
  comprehension (get_column_specification column_spec) cols =
    Raise (ArgumentError msg_bad_column_type).
Proof.
  induction cols as [|c cols IH]; intros H.
  - by apply Exists_nil in H.
  - simpl. unfold get_column_specification at 1.
    destruct (col_type c) as [T|n] eqn:Hc; [|reflexivity]. simpl.
    apply Exists_cons in H as [[n Hn]|H]; [congruence|].
    by rewrite (IH H).
Qed.
End DDLCompiler.

(** C4: when every column of the request carries a QuestDB type, the
    table has an engine and the engine yields a suffix,
    [visit_create_table] returns [CREATE TABLE '<name>' (] followed by
    the column specifications in column order separated by [, ],
    followed by [) ] and the suffix; when some column's type is not a
    QuestDB type it raises [ArgumentError] and returns no text. *)
Theorem visit_create_table_ddl
  (column_spec : types.QDBType -> string -> string) (create : CreateTable) :
  (forall (specs : list string) (e : QDBTableEngine.t) (suffix : string),
     Forall2 (has_spec column_spec) (create_columns create) specs ->
     engine (element create) = Some e ->
     fst (QDBTableEngine.get_table_suffix e) = Ok suffix ->
     fst (visit_create_table column_spec create) =
       Ok ("CREATE TABLE '" +:+ fullname (element create) +:+ "' (" +:+
           String.concat ", " specs +:+ ") " +:+ suffix)) /\
  (Exists is_foreign (create_columns create) ->
   fst (visit_create_table column_spec create) =
     Raise (ArgumentError msg_bad_column_type) /\
   forall sql, fst (visit_create_table column_spec create) <> Ok sql).
Proof.
  split.
  - intros specs e suffix Hspecs He Hsuffix. unfold visit_create_table.
    rewrite (column_specifications _ _ _ Hspecs), He.
    destruct (QDBTableEngine.get_table_suffix e) as [r e'].
    simpl in Hsuffix. subst r. simpl.
    by rewrite !append_assoc.
  - intros Hforeign. unfold visit_create_table.
    rewrite (column_specifications_foreign _ _ Hforeign). simpl.
    split; [reflexivity | discriminate].
Qed.

Lemma visit_create_table_ddl_witness :
  fst (visit_create_table samples.sample_column_spec samples.sample_create) =
    Ok "CREATE TABLE 'trades' (price DOUBLE, ts TIMESTAMP) TIMESTAMP(ts) PARTITION BY DAY WAL"
  /\ (fst (visit_create_table samples.sample_column_spec
             (with_engine (QDBTableEngine.init "t" None None false)
                {| element := element samples.sample_create;
                   create_columns :=
                     [ {| col_name := "n"; col_type := ForeignColumn "INTEGER";
                          primary_key := false |} ] |})) =
        Raise (ArgumentError msg_bad_column_type)
      /\ forall sql,
           fst (visit_create_table samples.sample_column_spec
             (with_engine (QDBTableEngine.init "t" None None false)
                {| element := element samples.sample_create;
                   create_columns :=
                     [ {| col_name := "n"; col_type := ForeignColumn "INTEGER";
                          primary_key := false |} ] |})) <> Ok sql).
Proof.
  split.
  - apply (proj1 (visit_create_table_ddl samples.sample_column_spec samples.sample_create)
             ["price DOUBLE"; "ts TIMESTAMP"]
             (QDBTableEngine.init "trades" (Some "ts") (Some types.DAY) true)
             "TIMESTAMP(ts) PARTITION BY DAY WAL").
    + repeat constructor; eexists; split; reflexivity.
    + reflexivity.
    + reflexivity.
  - apply (proj2 (visit_create_table_ddl samples.sample_column_spec _)).
    apply Exists_cons_hd. by eexists.
Defined.

(** ** The cursor *)

Lemma remove_public_schema_unqualified (query : string) :
  common.occurs_public query = false -> common.remove_public_schema query = query.
Proof.
  unfold common.remove_public_schema.
  induction query as [|c rest IH]; [reflexivity|].
  intros H. cbn [common.occurs_public] in H. apply orb_false_iff in H as [Hp Hr].
  cbn [common.strip_public]. rewrite Hp. by rewrite (IH Hr).
Qed.

(** C7: [Cursor.execute] hands the base cursor the query text with the
    reserved [public.] qualification stripped, and a text in which that
    prefix does not occur is handed over as it is:
    [SELECT * FROM public.t] is dispatched as [SELECT * FROM t], while
    [SELECT * FROM other.t] is dispatched unchanged. *)
Theorem cursor_execute_strips_public (Vars R : Type)
  (super_execute : string -> Vars -> R) (query : string) (vars : Vars) :
  dbapi.execute super_execute query vars =
    super_execute (common.remove_public_schema query) vars /\
  (common.occurs_public query = false ->
   dbapi.execute super_execute query vars = super_execute query vars) /\
  dbapi.execute super_execute "SELECT * FROM public.t" vars =
    super_execute "SELECT * FROM t" vars /\
  dbapi.execute super_execute "SELECT * FROM other.t" vars =
    super_execute "SELECT * FROM other.t" vars.
Proof.
  split; [reflexivity|]. split; [|split; reflexivity].
  intros H. unfold dbapi.execute.
  by rewrite (remove_public_schema_unqualified query H).
Qed.

Lemma cursor_execute_strips_public_witness :
  common.occurs_public "SELECT 1 FROM republic" = false /\
  dbapi.execute (fun (sql : string) (_ : unit) => sql)
    "SELECT 1 FROM republic" tt = "SELECT 1 FROM republic".
Proof.
  split; [reflexivity|].
  apply (proj1 (proj2 (cursor_execute_strips_public unit string
                         (fun sql _ => sql) "SELECT 1 FROM republic" tt))).
  reflexivity.
Defined.

Example remove_public_schema_twice :
  common.remove_public_schema
    "SELECT public.a.x FROM public.a JOIN other.b" =
  "SELECT a.x FROM a JOIN other.b".
Proof. reflexivity. Qed.

(** ** The inspector *)

Section Inspector.
Variable resolve_type_from_name : string -> Result types.QDBType.
Variable str_upper : string -> string.

Lemma extend_columns_nil (table : Table) : extend_columns [] table = table.
Proof. destruct table. unfold extend_columns. simpl. by rewrite app_nil_r. Qed.

Lemma extend_columns_app (a b : list Column) (table : Table) :
  extend_columns b (extend_columns a table) = extend_columns (a ++ b) table.
Proof. unfold extend_columns. simpl. by rewrite app_assoc. Qed.

Lemma reflect_rows_all (ts : string)
  (include_columns exclude_columns : option (list string))
  (rows : list ColumnRow) (table : Table) :
  ts <> "" ->
  Forall (fun row => skipped include_columns exclude_columns (fst row) = false)
    rows ->
  Forall (fun row => exists T, resolve_type_from_name (snd row) = Ok T) rows ->
  exists new,
    reflect_rows resolve_type_from_name str_upper (Some ts)
      include_columns exclude_columns rows table =
      (Ok tt, extend_columns new table) /\
    Forall2 (reflects resolve_type_from_name str_upper ts) rows new.
Proof.
  intros Hts Hkeep Hres. revert table.
  induction rows as [|row rows IH]; intros table.
  - exists []. split; [by rewrite extend_columns_nil | constructor].
  - apply Forall_cons in Hkeep as [Hk Hkeep].
    apply Forall_cons in Hres as [[T HT] Hres].
    cbn [reflect_rows]. rewrite Hk, HT.
    set (column := if is_designated str_upper (Some ts) (fst row) then _ else _).
    destruct (IH Hkeep Hres (append_column column table)) as [new [Heq Hnew]].
    exists (column :: new). split.
    + rewrite Heq. f_equal.
      change (append_column column table) with (extend_columns [column] table).
      by rewrite extend_columns_app.
    + constructor; [|exact Hnew].
      assert (Hpk : is_designated str_upper (Some ts) (fst row) =
                    bool_decide (str_upper ts = str_upper (fst row))).
      { unfold is_designated. destruct ts; [done | reflexivity]. }
      subst column. rewrite Hpk.
      destruct (bool_decide_reflect (str_upper ts = str_upper (fst row)));
        (split; [reflexivity | split; [by exists T |]]); simpl; split;
        intros; done.
Qed.
End Inspector.



Example reflect_sample_table :
  reflect_table samples.sample_resolve upper samples.sample_bind
    samples.sample_table None None =
  (Ok tt,
   {| tbl_name := "trades"; fullname := "trades";
      columns :=
        [ {| col_name := "price"; col_type := QDBColumn types.QDB.Double;
             primary_key := false |};
          {| col_name := "TS"; col_type := QDBColumn types.QDB.Timestamp;
             primary_key := true |} ];
      engine := Some (QDBTableEngine.init "trades" (Some "ts")
                        (Some types.DAY) true);
      metadata := [] |}).
Proof. vm_compute. reflexivity. Qed.

Example reflect_sample_table_excluding :
  columns (snd (reflect_table samples.sample_resolve upper
                  samples.sample_bind samples.sample_table None
                  (Some ["price"]))) =
  [ {| col_name := "TS"; col_type := QDBColumn types.QDB.Timestamp;
       primary_key := true |} ].
Proof. vm_compute. reflexivity. Qed.

Section InspectorColumns.
Variable resolve_type_from_name : string -> Result types.QDBType.

Lemma column_dicts (rows : list ColumnRow) :
  Forall (fun row => exists T, resolve_type_from_name (snd row) = Ok T) rows ->
  exists dicts,
    comprehension (column_dict resolve_type_from_name) rows = Ok dicts /\
    Forall2 (describes resolve_type_from_name) rows dicts.
Proof.
  induction 1 as [|row rows [T HT] _ [dicts [Heq Hd]]].
  - exists []. split; [reflexivity | constructor].
  - eexists (_ :: dicts). cbn [comprehension]. unfold column_dict at 1.
    rewrite HT, Heq. simpl. split; [reflexivity|].
    constructor; [|exact Hd].
    unfold describes. repeat split; try reflexivity.
    exists T. split; [exact HT | reflexivity].
Qed.
End InspectorColumns.

(** C8: when the column-listing query returns rows (whose raw type
    names all resolve), [get_columns] returns one dictionary per row, in
    row order, holding the row's name and resolved type, with [nullable]
    true, [autoincrement] false and [persisted] true. *)
Theorem get_columns_metadata
  (resolve_type_from_name : string -> Result types.QDBType)
  (self_bind : Bind) (table_name : string) :
  execute_table_columns self_bind table_name <> [] ->
  Forall (fun row => exists T, resolve_type_from_name (snd row) = Ok T)
    (execute_table_columns self_bind table_name) ->
  exists dicts : list (gmap string MetaValue),
    get_columns resolve_type_from_name self_bind table_name = Ok dicts /\
    length dicts = length (execute_table_columns self_bind table_name) /\
    Forall2 (describes resolve_type_from_name)
      (execute_table_columns self_bind table_name) dicts.
Proof.
  intros Hrows Hres.
  destruct (column_dicts resolve_type_from_name _ Hres) as [dicts [Heq Hd]].
  exists dicts. unfold get_columns.
  destruct (execute_table_columns self_bind table_name) as [|row rows];
    [done|].
  repeat split; [exact Heq | | exact Hd].
  symmetry. by eapply Forall2_length.
Qed.

Lemma get_columns_metadata_witness :
  exists dicts : list (gmap string MetaValue),
    get_columns samples.sample_resolve samples.sample_bind "trades" =
      Ok dicts /\
    length dicts =
      length (execute_table_columns samples.sample_bind "trades") /\
    Forall2 (describes samples.sample_resolve)
      (execute_table_columns samples.sample_bind "trades") dicts.
Proof.
  apply (get_columns_metadata samples.sample_resolve samples.sample_bind
           "trades").
  - discriminate.
  - repeat constructor; eexists; vm_compute; reflexivity.
Defined.

Example get_columns_unknown_table :
  get_columns samples.sample_resolve samples.sample_bind "quotes" =
    Raise (NoResultFound "Table 'quotes' does not exist").
Proof. reflexivity. Qed.

(** ** More on the table engine *)

Section TableEngineMore.
Import QDBTableEngine.

(** A descriptor either satisfies the invariants or breaks one. *)
Lemma valid_or_invalid (self : t) : valid self \/ invalid self.
Proof.
  unfold valid, invalid.
  destruct (is_partitioned self), (has_ts self), (is_wal self);
    try (left; split; intros; congruence);
    try (right; left; split; reflexivity);
    right; right; split; reflexivity.
Qed.

(** The table name plays no part in the suffix. *)
Lemma get_table_suffix_name (n1 n2 : string) (ts : option string)
  (pb : option types.PartitionBy) (wal : bool) :
  fst (get_table_suffix (init n1 ts pb wal)) =
  fst (get_table_suffix (init n2 ts pb wal)).
Proof.
  unfold get_table_suffix, init, is_partitioned, has_ts, partition_by_name.
  simpl. destruct ts, pb as [[]|], wal; reflexivity.
Qed.

(** X1: the first call of [get_table_suffix] on a freshly built descriptor
    returns a string exactly when the fields satisfy the two invariants,
    and that string is the applicable clauses joined by single spaces
    (so the [BYPASS WAL] branch never contributes). *)
Theorem get_table_suffix_first_call_ok_iff (table_name : string)
  (ts : option string) (pb : option types.PartitionBy) (wal : bool)
  (s : string) :
  fst (get_table_suffix (init table_name ts pb wal)) = Ok s <->
  valid (init table_name ts pb wal) /\
  s = String.concat " " (applicable_clauses (init table_name ts pb wal)).
Proof.
  split.
  - intros Hok.
    destruct (valid_or_invalid (init table_name ts pb wal)) as [Hv | Hi].
    + split; [exact Hv|].
      rewrite (get_table_suffix_fresh_valid (init table_name ts pb wal) eq_refl Hv) in Hok.
      simpl in Hok. congruence.
    + destruct (get_table_suffix_fresh_invalid (init table_name ts pb wal) eq_refl Hi) as [msg Hmsg].
      congruence.
  - intros [Hv ->]. by rewrite (get_table_suffix_fresh_valid (init table_name ts pb wal) eq_refl Hv).
Qed.

(** After a failing first call the memo holds the TIMESTAMP clause, if
    there is a designated timestamp, and nothing else. *)
Lemma get_table_suffix_invalid_memo (table_name : string)
  (ts : option string) (pb : option types.PartitionBy) (wal : bool) :
  invalid (init table_name ts pb wal) ->
  compiled (snd (get_table_suffix (init table_name ts pb wal))) =
    Some (match ts with
          | Some col => "TIMESTAMP(" +:+ col +:+ ")"
          | None => ""
          end).
Proof.
  unfold invalid, get_table_suffix, is_partitioned, has_ts. simpl.
  intros [[Hp Ht] | [Hw Hp]].
  - rewrite Hp. by destruct ts.
  - rewrite Hp. by subst wal.
Qed.

(** X2: on a freshly built descriptor that breaks an invariant the first
    call raises [ArgumentError], with the designated-timestamp message
    when the table is partitioned and the WAL message otherwise, and it
    leaves in the memo the TIMESTAMP clause (if a designated timestamp
    is set) and nothing else. *)
Theorem get_table_suffix_first_call_error (table_name : string)
  (ts : option string) (pb : option types.PartitionBy) (wal : bool) :
  invalid (init table_name ts pb wal) ->
  fst (get_table_suffix (init table_name ts pb wal)) =
    Raise (ArgumentError
             (if is_partitioned (init table_name ts pb wal)
              then msg_no_timestamp else msg_no_partition)) /\
  compiled (snd (get_table_suffix (init table_name ts pb wal))) =
    Some (match ts with
          | Some col => "TIMESTAMP(" +:+ col +:+ ")"
          | None => ""
          end).
Proof.
  unfold invalid, get_table_suffix, is_partitioned, has_ts. simpl.
  intros [[Hp Ht] | [Hw Hp]].
  - rewrite Hp. destruct ts; [discriminate|]. split; reflexivity.
  - rewrite Hp. subst wal. split; reflexivity.
Qed.

Lemma get_table_suffix_first_call_error_witness :
  invalid (init "t" None (Some types.HOUR) true) /\
  fst (get_table_suffix (init "t" None (Some types.HOUR) true)) =
    Raise (ArgumentError msg_no_timestamp) /\
  compiled (snd (get_table_suffix (init "t" None (Some types.HOUR) true))) =
    Some "".
Proof.
  split; [left; split; reflexivity|].
  apply (get_table_suffix_first_call_error "t" None (Some types.HOUR) true).
  left; split; reflexivity.
Defined.
End TableEngineMore.
(** ** More on the DDL compiler *)

Section DDLCompilerMore.
Variable column_spec : types.QDBType -> string -> string.

Lemma visit_create_table_with_engine (create : CreateTable)
  (specs : list string) (e : QDBTableEngine.t) :
  Forall2 (has_spec column_spec) (create_columns create) specs ->
  engine (element create) = Some e ->
  visit_create_table column_spec create =
    (Py.bind (fst (QDBTableEngine.get_table_suffix e))
       (fun suffix =>
          Ok (ddl_head (fullname (element create)) specs +:+ suffix)),
     with_engine (snd (QDBTableEngine.get_table_suffix e)) create).
Proof.
  intros Hspecs He. unfold visit_create_table.
  rewrite (column_specifications _ _ _ Hspecs), He.
  destruct (QDBTableEngine.get_table_suffix e) as [r e']. cbn [fst snd].
  f_equal. destruct r as [suffix|err]; [|reflexivity]. cbn [Py.bind].
  unfold ddl_head. by rewrite !append_assoc.
Qed.

(** X3: for a table whose engine was attached by [_set_parent] from a
    freshly built valid descriptor and whose columns all have
    specifications, [visit_create_table] returns the full statement text,
    and compiling the same element again returns the same text. *)
Theorem visit_create_table_repeatable (table : Table) (cols : list Column)
  (specs : list string) (table_name : string) (ts : option string)
  (pb : option types.PartitionBy) (wal : bool) :
  Forall2 (has_spec column_spec) cols specs ->
  QDBTableEngine.valid (QDBTableEngine.init table_name ts pb wal) ->
  fst (visit_create_table column_spec
         {| element := _set_parent (QDBTableEngine.init table_name ts pb wal)
                         table;
            create_columns := cols |}) =
    Ok (ddl_head (fullname table) specs +:+
        String.concat " "
          (QDBTableEngine.applicable_clauses
             (QDBTableEngine.init table_name ts pb wal))) /\
  fst (visit_create_table column_spec
         (snd (visit_create_table column_spec
                 {| element :=
                      _set_parent (QDBTableEngine.init table_name ts pb wal)
                        table;
                    create_columns := cols |}))) =
  fst (visit_create_table column_spec
         {| element := _set_parent (QDBTableEngine.init table_name ts pb wal)
                         table;
            create_columns := cols |}).
Proof.
  intros Hspecs Hv.
  set (e := QDBTableEngine.init table_name ts pb wal).
  set (create := {| element := _set_parent e table; create_columns := cols |}).
  pose proof (get_table_suffix_fresh_valid e eq_refl Hv) as Hfirst.
  rewrite (visit_create_table_with_engine create specs e Hspecs eq_refl).
  rewrite Hfirst. cbn [fst snd Py.bind]. split; [reflexivity|].
  rewrite (visit_create_table_with_engine
             (with_engine
                (QDBTableEngine.set_compiled
                   (String.concat " " (QDBTableEngine.applicable_clauses e)) e)
                create)
             specs
             (QDBTableEngine.set_compiled
                (String.concat " " (QDBTableEngine.applicable_clauses e)) e)
             Hspecs eq_refl).
  reflexivity.
Qed.

(** X4: with an engine that breaks an invariant, the first
    [visit_create_table] raises [ArgumentError], but a second call on
    the same element returns a statement whose suffix is only the
    TIMESTAMP clause (or nothing): the check is not repeated. *)
Theorem visit_create_table_invalid_engine (table : Table)
  (cols : list Column) (specs : list string) (table_name : string)
  (ts : option string) (pb : option types.PartitionBy) (wal : bool) :
  Forall2 (has_spec column_spec) cols specs ->
  QDBTableEngine.invalid (QDBTableEngine.init table_name ts pb wal) ->
  (exists msg,
     fst (visit_create_table column_spec
            {| element :=
                 _set_parent (QDBTableEngine.init table_name ts pb wal) table;
               create_columns := cols |}) = Raise (ArgumentError msg)) /\
  fst (visit_create_table column_spec
         (snd (visit_create_table column_spec
                 {| element :=
                      _set_parent (QDBTableEngine.init table_name ts pb wal)
                        table;
                    create_columns := cols |}))) =
    Ok (ddl_head (fullname table) specs +:+
        match ts with
        | Some col => "TIMESTAMP(" +:+ col +:+ ")"
        | None => ""
        end).
Proof.
  intros Hspecs Hi.
  set (e := QDBTableEngine.init table_name ts pb wal).
  set (create := {| element := _set_parent e table; create_columns := cols |}).
  destruct (get_table_suffix_fresh_invalid e eq_refl Hi) as [msg Herr].
  pose proof (get_table_suffix_invalid_memo table_name ts pb wal Hi) as Hmemo.
  fold e in Hmemo.
  rewrite (visit_create_table_with_engine create specs e Hspecs eq_refl).
  rewrite Herr. cbn [fst snd Py.bind]. split; [by eexists|].
  rewrite (visit_create_table_with_engine
             (with_engine (snd (QDBTableEngine.get_table_suffix e)) create)
             specs (snd (QDBTableEngine.get_table_suffix e)) Hspecs eq_refl).
  by rewrite (get_table_suffix_memo _ _ Hmemo).
Qed.

(** X5: a column of a foreign type makes [visit_create_table] fail before
    the engine is consulted: the element, and with it the engine's memo,
    is left as it was. *)
Theorem visit_create_table_foreign_untouched (create : CreateTable) :
  Exists is_foreign (create_columns create) ->
  snd (visit_create_table column_spec create) = create.
Proof.
  intros H. unfold visit_create_table.
  by rewrite (column_specifications_foreign _ _ H).
Qed.
End DDLCompilerMore.

(** ** More on the identifier quoter *)

Lemma append_length (a b : string) :
  String.length (a +:+ b) = String.length a + String.length b.
Proof. induction a as [|c a IH]; simpl; [reflexivity | by rewrite IH]. Qed.

Lemma strip_leading_quote_length (s : string) :
  String.length s - 1 <= String.length (strip_leading_quote s)
                      <= String.length s.
Proof.
  destruct s as [|c r]; simpl; [lia|].
  destruct (is_quote c); simpl; lia.
Qed.

Lemma strip_trailing_quote_length (s : string) :
  String.length s - 1 <= String.length (strip_trailing_quote s)
                      <= String.length s.
Proof.
  induction s as [|c r IH]; [simpl; lia|].
  destruct r as [|d r'].
  - simpl. destruct (is_quote c); simpl; lia.
  - change (strip_trailing_quote (String c (String d r')))
      with (String c (strip_trailing_quote (String d r'))).
    simpl in *. lia.
Qed.

(** X6: [_quote_identifier] returns its argument unchanged exactly when
    the argument is already wrapped in single quotes. *)
Theorem quote_identifier_fixed_points (identifier : string) :
  _quote_identifier identifier = Some identifier <->
  exists inner, identifier = "'" +:+ inner +:+ "'".
Proof.
  split.
  - intros H. destruct identifier as [|c r]; [discriminate|].
    rewrite quote_identifier_strips in H by done.
    exists (strip_trailing_quote (strip_leading_quote (String c r))).
    congruence.
  - intros [inner ->].
    rewrite quote_identifier_strips by done. do 3 f_equal.
    change (strip_leading_quote ("'" +:+ inner +:+ "'")) with (inner +:+ "'").
    apply strip_trailing_quote_app.
Qed.

(** Dropping the trailing quote of a text that ends with a quote
    character. *)
Lemma strip_trailing_quote_snoc (s : string) (b : ascii) :
  is_quote b = true -> strip_trailing_quote (s +:+ String b "") = s.
Proof.
  intros Hb. induction s as [|c r IH].
  - simpl. by rewrite Hb.
  - destruct r as [|d r'].
    + simpl. by rewrite Hb.
    + change (strip_trailing_quote (String c (String d r') +:+ String b ""))
        with (String c (strip_trailing_quote (String d r' +:+ String b ""))).
      by rewrite IH.
Qed.

(** X7: an identifier wrapped in quote characters of either kind, in any
    combination, comes back wrapped in single quotes, its inner text
    untouched. *)
Theorem quote_identifier_requotes (a b : ascii) (inner : string) :
  is_quote a = true -> is_quote b = true ->
  _quote_identifier (String a (inner +:+ String b "")) =
    Some ("'" +:+ inner +:+ "'").
Proof.
  intros Ha Hb. rewrite quote_identifier_strips by done. do 3 f_equal.
  cbn [strip_leading_quote]. rewrite Ha. by apply strip_trailing_quote_snoc.
Qed.

Lemma quote_identifier_requotes_witness :
  _quote_identifier (String "034" ("my col" +:+ String "034" "")) =
    Some ("'" +:+ "my col" +:+ "'").
Proof.
  apply (quote_identifier_requotes "034" "034" "my col"); reflexivity.
Defined.

(** X8: a non-empty identifier always gets quoted, and the quoted form is
    at least as long as the identifier and at most two characters
    longer. *)
Theorem quote_identifier_length (identifier : string) :
  identifier <> "" ->
  exists quoted,
    _quote_identifier identifier = Some quoted /\
    String.length identifier <= String.length quoted
                             <= String.length identifier + 2.
Proof.
  intros Hne. eexists. split; [by apply quote_identifier_strips|].
  rewrite !append_length. simpl.
  pose proof (strip_leading_quote_length identifier).
  pose proof (strip_trailing_quote_length (strip_leading_quote identifier)).
  assert (0 < String.length identifier) by (destruct identifier; [done | simpl; lia]).
  lia.
Qed.

Lemma quote_identifier_length_witness :
  exists quoted,
    _quote_identifier "'it's'" = Some quoted /\
    String.length "'it's'" <= String.length quoted
                           <= String.length "'it's'" + 2.
Proof. apply (quote_identifier_length "'it's'"). discriminate. Defined.

(** ** More on the inspector *)

Section InspectorMore.
Variable resolve_type_from_name : string -> Result types.QDBType.
Variable str_upper : string -> string.

#[local] Abbreviation resolvable :=
  (fun row : ColumnRow => exists T, resolve_type_from_name (snd row) = Ok T).
#[local] Abbreviation loop := (reflect_rows resolve_type_from_name str_upper).
#[local] Abbreviation built := (reflected_from resolve_type_from_name str_upper).

Lemma reflect_rows_step_skip (ts : option string)
  (inc exc : option (list string)) (row : ColumnRow) (rows : list ColumnRow)
  (table : Table) :
  skipped inc exc (fst row) = true ->
  loop ts inc exc (row :: rows) table = loop ts inc exc rows table.
Proof. intros H. cbn [reflect_rows]. by rewrite H. Qed.

Lemma reflect_rows_step_keep (ts : option string)
  (inc exc : option (list string)) (row : ColumnRow) (rows : list ColumnRow)
  (table : Table) (T : types.QDBType) :
  skipped inc exc (fst row) = false ->
  resolve_type_from_name (snd row) = Ok T ->
  loop ts inc exc (row :: rows) table =
    loop ts inc exc rows
      (extend_columns
         [ {| col_name := fst row; col_type := QDBColumn T;
              primary_key := is_designated str_upper ts (fst row) |} ]
         table).
Proof.
  intros Hk HT. cbn [reflect_rows]. rewrite Hk, HT.
  by destruct (is_designated str_upper ts (fst row)).
Qed.

Lemma reflect_rows_step_raise (ts : option string)
  (inc exc : option (list string)) (row : ColumnRow) (rows : list ColumnRow)
  (table : Table) (e : PyError) :
  skipped inc exc (fst row) = false ->
  resolve_type_from_name (snd row) = Raise e ->
  loop ts inc exc (row :: rows) table = (Raise e, table).
Proof. intros Hk He. cbn [reflect_rows]. by rewrite Hk, He. Qed.

(** The loop succeeds when the rows that are kept resolve, and builds
    one column for each of them. *)
Lemma reflect_rows_kept (ts : option string) (inc exc : option (list string))
  (rows : list ColumnRow) (table : Table) :
  Forall resolvable (kept_rows inc exc rows) ->
  exists new,
    loop ts inc exc rows table = (Ok tt, extend_columns new table) /\
    Forall2 (built ts) (kept_rows inc exc rows) new.
Proof.
  revert table. induction rows as [|row rows IH]; intros table Hres.
  - exists []. split; [by rewrite extend_columns_nil | constructor].
  - cbn [kept_rows List.filter] in *. fold (kept_rows inc exc rows) in *.
    destruct (skipped inc exc (fst row)) eqn:Hs; cbn [negb] in *.
    + rewrite (reflect_rows_step_skip _ _ _ _ _ _ Hs). by apply IH.
    + apply Forall_cons in Hres as [[T HT] Hres].
      rewrite (reflect_rows_step_keep _ _ _ _ _ _ T Hs HT).
      match goal with
      | |- context [reflect_rows _ _ _ _ _ rows ?t] =>
          destruct (IH t Hres) as [new [Heq Hnew]]
      end.
      eexists (_ :: new). rewrite Heq, extend_columns_app. split; [reflexivity|].
      constructor; [|exact Hnew].
      split; [reflexivity|]. split; [by exists T | reflexivity].
Qed.

(** The loop stops at the first kept row whose type does not resolve;
    the columns of the kept rows before it stay appended. *)
Lemma reflect_rows_raises (ts : option string)
  (inc exc : option (list string)) (rows : list ColumnRow) (table : Table)
  (pre post : list ColumnRow) (bad : ColumnRow) (e : PyError) :
  kept_rows inc exc rows = (pre ++ bad :: post)%list ->
  Forall resolvable pre ->
  resolve_type_from_name (snd bad) = Raise e ->
  exists new,
    loop ts inc exc rows table = (Raise e, extend_columns new table) /\
    Forall2 (built ts) pre new.
Proof.
  revert table pre. induction rows as [|row rows IH]; intros table pre Hk Hpre He.
  - by destruct pre.
  - cbn [kept_rows List.filter] in Hk. fold (kept_rows inc exc rows) in Hk.
    destruct (skipped inc exc (fst row)) eqn:Hs; cbn [negb] in Hk.
    + rewrite (reflect_rows_step_skip _ _ _ _ _ _ Hs). by apply IH.
    + destruct pre as [|p pre]; simpl in Hk; injection Hk as -> Hk.
      * exists []. rewrite (reflect_rows_step_raise _ _ _ _ _ _ e Hs He).
        split; [by rewrite extend_columns_nil | constructor].
      * apply Forall_cons in Hpre as [[T HT] Hpre].
        rewrite (reflect_rows_step_keep _ _ _ _ _ _ T Hs HT).
        match goal with
        | |- context [reflect_rows _ _ _ _ _ rows ?t] =>
            destruct (IH t _ Hk Hpre He) as [new [Heq Hnew]]
        end.
        eexists (_ :: new). rewrite Heq, extend_columns_app.
        split; [reflexivity|]. constructor; [|exact Hnew].
        split; [reflexivity|]. split; [by exists T | reflexivity].
Qed.

(** Whatever happens, the loop only appends columns. *)
Lemma reflect_rows_extends (ts : option string)
  (inc exc : option (list string)) (rows : list ColumnRow) (table : Table) :
  exists new, snd (loop ts inc exc rows table) = extend_columns new table.
Proof.
  revert table. induction rows as [|row rows IH]; intros table.
  - exists []. by rewrite extend_columns_nil.
  - cbn [reflect_rows].
    destruct (skipped inc exc (fst row)); [by apply IH|].
    destruct (resolve_type_from_name (snd row)) as [T|e].
    + destruct (IH (append_column
                      (if is_designated str_upper ts (fst row)
                       then {| col_name := fst row; col_type := QDBColumn T;
                               primary_key := true |}
                       else {| col_name := fst row; col_type := QDBColumn T;
                               primary_key := false |}) table))
        as [new Hnew].
      eexists (_ :: new). rewrite Hnew.
      change (append_column ?c table) with (extend_columns [c] table).
      by rewrite extend_columns_app.
    + exists []. by rewrite extend_columns_nil.
Qed.

(** Filters that skip the same names give the same loop. *)
Lemma reflect_rows_same_filters (ts : option string)
  (inc1 exc1 inc2 exc2 : option (list string)) (rows : list ColumnRow)
  (table : Table) :
  (forall col, skipped inc1 exc1 col = skipped inc2 exc2 col) ->
  loop ts inc1 exc1 rows table = loop ts inc2 exc2 rows table.
Proof.
  intros Hsame. revert table. induction rows as [|row rows IH]; intros table.
  - reflexivity.
  - cbn [reflect_rows]. rewrite Hsame.
    destruct (skipped inc2 exc2 (fst row)); [apply IH|].
    destruct (resolve_type_from_name (snd row)); [apply IH | reflexivity].
Qed.
End InspectorMore.

Lemma getitem_name (p : types.PartitionBy) : types.getitem (types.name p) = Ok p.
Proof. by destruct p. Qed.

Lemma getitem_unknown (key : string) :
  (forall p, types.name p <> key) -> types.getitem key = Raise (KeyError key).
Proof.
  intros Hno. unfold types.getitem.
  destruct (find (fun p => (types.name p =? key)%string) types.members)
    as [p|] eqn:Hfind; [|reflexivity].
  apply find_some in Hfind as [_ Heq]. apply String.eqb_eq in Heq.
  by destruct (Hno p).
Qed.

Lemma skipped_no_filters (col : string) : skipped None None col = false.
Proof. reflexivity. Qed.

Lemma skipped_empty_filters (inc exc : option (list string)) (col : string) :
  skipped (Some []) exc col = skipped None exc col /\
  skipped inc (Some []) col = skipped inc None col.
Proof. unfold skipped. simpl. split; [reflexivity|]. by rewrite !orb_false_r. Qed.

Lemma kept_rows_no_filters (rows : list ColumnRow) :
  kept_rows None None rows = rows.
Proof.
  induction rows as [|row rows IH]; [reflexivity|].
  unfold kept_rows in *. simpl. f_equal. exact IH.
Qed.

(** What it takes for a name to pass the filters. *)
Lemma skipped_false (inc exc : option (list string)) (col : string) :
  skipped inc exc col = false ->
  (forall l, exc = Some l -> col ∉ l) /\
  (forall l, inc = Some l -> l <> [] -> col ∈ l).
Proof.
  unfold skipped. intros H. apply orb_false_iff in H as [Hi He]. split.
  - intros l ->. destruct l as [|x l]; [apply not_elem_of_nil|].
    simpl in He. by apply bool_decide_eq_false in He.
  - intros l -> Hl. destruct l as [|x l]; [done|].
    simpl in Hi. apply negb_false_iff in Hi. by apply bool_decide_eq_true in Hi.
Qed.

Section InspectorTable.
Variable resolve_type_from_name : string -> Result types.QDBType.
Variable str_upper : string -> string.

#[local] Abbreviation resolvable :=
  (fun row : ColumnRow => exists T, resolve_type_from_name (snd row) = Ok T).
#[local] Abbreviation reflect :=
  (reflect_table resolve_type_from_name str_upper).
#[local] Abbreviation built :=
  (reflected_from resolve_type_from_name str_upper).

(** When the rows that pass the filters resolve, the call succeeds; the
    table gains their columns, a fresh engine and fresh metadata. *)
Lemma reflect_table_kept (self_bind : Bind) (table : Table)
  (include_columns exclude_columns : option (list string))
  (table_attrs : TableAttrs) (more : list TableAttrs)
  (partition_by : types.PartitionBy) :
  execute_tables self_bind (tbl_name table) = table_attrs :: more ->
  types.getitem (partitionBy table_attrs) = Ok partition_by ->
  Forall resolvable
    (kept_rows include_columns exclude_columns
       (execute_table_columns self_bind (tbl_name table))) ->
  exists new : list Column,
    reflect self_bind table include_columns exclude_columns =
      (Ok tt,
       reset_metadata
         (set_engine
            (QDBTableEngine.init (tbl_name table)
               (designatedTimestamp table_attrs) (Some partition_by)
               (walEnabled table_attrs))
            (extend_columns new table))) /\
    Forall2 (built (designatedTimestamp table_attrs))
      (kept_rows include_columns exclude_columns
         (execute_table_columns self_bind (tbl_name table))) new.
Proof.
  intros Hq1 Hpb Hres.
  destruct (reflect_rows_kept resolve_type_from_name str_upper
              (designatedTimestamp table_attrs) include_columns
              exclude_columns _ table Hres) as [new [Hloop Hnew]].
  exists new. split; [|exact Hnew].
  unfold reflect_table. rewrite Hq1, Hpb, Hloop.
  by destruct (walEnabled table_attrs).
Qed.

Lemma built_pass_filters (ts : option string)
  (inc exc : option (list string)) (rows : list ColumnRow)
  (new : list Column) :
  Forall2 (built ts) rows new ->
  Forall (fun row => skipped inc exc (fst row) = false) rows ->
  Forall (fun column =>
            (forall l, exc = Some l -> col_name column ∉ l) /\
            (forall l, inc = Some l -> l <> [] -> col_name column ∈ l)) new.
Proof.
  induction 1 as [|row column rows new [Hname _] _ IH]; intros Hkept;
    [constructor|].
  apply Forall_cons in Hkept as [Hrow Hkept].
  constructor; [|by apply IH].
  rewrite Hname. by apply skipped_false.
Qed.

Lemma built_no_primary_key (ts : option string) (rows : list ColumnRow)
  (new : list Column) :
  ts = None \/ ts = Some "" ->
  Forall2 (built ts) rows new ->
  Forall (fun column => primary_key column = false) new.
Proof.
  intros Hts. induction 1 as [|row column rows new [_ [_ Hpk]] _ IH];
    constructor; [|exact IH].
  rewrite Hpk. by destruct Hts as [-> | ->].
Qed.



(** X12: an empty [include_columns] or [exclude_columns] filters nothing:
    it behaves like [None]; in particular [reflecttable] with its
    default [exclude_columns] is [reflect_table] without exclusions. *)
Theorem reflect_table_empty_filters (self_bind : Bind) (table : Table)
  (include_columns exclude_columns : option (list string)) :
  reflect self_bind table (Some []) exclude_columns =
    reflect self_bind table None exclude_columns /\
  reflect self_bind table include_columns (Some []) =
    reflect self_bind table include_columns None /\
  reflecttable resolve_type_from_name str_upper self_bind table
    include_columns reflecttable_default_exclude =
    reflect self_bind table include_columns None.
Proof.
  assert (Hinc : forall exc rows ts t,
            reflect_rows resolve_type_from_name str_upper ts (Some []) exc
              rows t =
            reflect_rows resolve_type_from_name str_upper ts None exc rows t).
  { intros. apply reflect_rows_same_filters. intros col.
    apply (skipped_empty_filters None exc col). }
  assert (Hexc : forall inc rows ts t,
            reflect_rows resolve_type_from_name str_upper ts inc (Some [])
              rows t =
            reflect_rows resolve_type_from_name str_upper ts inc None rows t).
  { intros. apply reflect_rows_same_filters. intros col.
    apply (skipped_empty_filters inc None col). }
  unfold reflecttable, reflecttable_default_exclude, reflect_table.
  repeat split;
    (destruct (execute_tables self_bind (tbl_name table)) as [|attrs ?];
       [reflexivity|];
     destruct (types.getitem (partitionBy attrs)); [|reflexivity];
     by rewrite ?Hinc, ?Hexc).
Qed.



(** X15: when the first query reports a partition granularity that is not
    a member of [PartitionBy], [reflect_table] raises [KeyError] for
    that name and leaves the table untouched. *)
Theorem reflect_table_unknown_partition (self_bind : Bind) (table : Table)
  (include_columns exclude_columns : option (list string))
  (table_attrs : TableAttrs) (more : list TableAttrs) :
  execute_tables self_bind (tbl_name table) = table_attrs :: more ->
  (forall p, types.name p <> partitionBy table_attrs) ->
  reflect self_bind table include_columns exclude_columns =
    (Raise (KeyError (partitionBy table_attrs)), table).
Proof.
  intros Hq1 Hno. unfold reflect_table.
  by rewrite Hq1, (getitem_unknown _ Hno).
Qed.

(** X16: the engine attached by a successful [reflect_table] has an empty
    memo and compiles to the same suffix (or raises the same error) as
    a descriptor built with the reported designated timestamp,
    granularity and WAL flag, whatever its table name. *)
Theorem reflect_table_engine_round_trip (self_bind : Bind) (table : Table)
  (include_columns exclude_columns : option (list string))
  (table_attrs : TableAttrs) (more : list TableAttrs)
  (p : types.PartitionBy) (table_name : string) :
  execute_tables self_bind (tbl_name table) = table_attrs :: more ->
  partitionBy table_attrs = types.name p ->
  Forall resolvable
    (kept_rows include_columns exclude_columns
       (execute_table_columns self_bind (tbl_name table))) ->
  exists e : QDBTableEngine.t,
    engine (snd (reflect self_bind table include_columns exclude_columns)) =
      Some e /\
    QDBTableEngine.compiled e = None /\
    fst (QDBTableEngine.get_table_suffix e) =
    fst (QDBTableEngine.get_table_suffix
           (QDBTableEngine.init table_name (designatedTimestamp table_attrs)
              (Some p) (walEnabled table_attrs))).
Proof.
  intros Hq1 Hname Hres.
  assert (Hpb : types.getitem (partitionBy table_attrs) = Ok p)
    by (rewrite Hname; apply getitem_name).
  destruct (reflect_table_kept self_bind table include_columns
              exclude_columns table_attrs more p Hq1 Hpb Hres)
    as [new [Heq _]].
  eexists. rewrite Heq. split; [reflexivity|]. split; [reflexivity|].
  apply get_table_suffix_name.
Qed.
End InspectorTable.

(** ** Introspection and DDL together *)

Lemma comprehension_raises {A B : Type} (f : A -> Result B)
  (pre post : list A) (bad : A) (e : PyError) :
  Forall (fun x => exists y, f x = Ok y) pre ->
  f bad = Raise e ->
  comprehension f (pre ++ bad :: post) = Raise e.
Proof.
  intros Hpre Hbad. induction Hpre as [|x pre [y Hy] _ IH]; simpl.
  - by rewrite Hbad.
  - by rewrite Hy, IH.
Qed.

Section InspectorCompose.
Variable resolve_type_from_name : string -> Result types.QDBType.
Variable str_upper : string -> string.
Variable column_spec : types.QDBType -> string -> string.

#[local] Abbreviation resolvable :=
  (fun row : ColumnRow => exists T, resolve_type_from_name (snd row) = Ok T).
#[local] Abbreviation reflect :=
  (reflect_table resolve_type_from_name str_upper).
#[local] Abbreviation built :=
  (reflected_from resolve_type_from_name str_upper).

(** Every reflected column has a specification. *)
Lemma built_have_specs (ts : option string) (rows : list ColumnRow)
  (new : list Column) :
  Forall2 (built ts) rows new ->
  exists specs, Forall2 (has_spec column_spec) new specs.
Proof.
  induction 1 as [|row column rows new [_ [[T [_ HT]] _]] _ [specs IH]].
  - exists []. constructor.
  - exists (column_spec T (col_name column) :: specs).
    constructor; [by exists T | exact IH].
Qed.

End InspectorCompose.

Section InspectorAgree.
Variable resolve_type_from_name : string -> Result types.QDBType.
Variable str_upper : string -> string.

#[local] Abbreviation resolvable :=
  (fun row : ColumnRow => exists T, resolve_type_from_name (snd row) = Ok T).

Lemma built_described (ts : option string) (rows : list ColumnRow)
  (new : list Column) (dicts : list (gmap string MetaValue)) :
  Forall2 (reflected_from resolve_type_from_name str_upper ts) rows new ->
  Forall2 (describes resolve_type_from_name) rows dicts ->
  Forall2 same_name_and_type new dicts.
Proof.
  intros Hnew. revert dicts.
  induction Hnew as [|row column rows new [Hname [[T [HT Hty]] _]] _ IH];
    intros dicts Hd; inversion Hd as [|? dict ? dicts' Hdict Hrest]; subst;
    constructor; [|by apply IH].
  destruct Hdict as [Hdname [[T' [HT' Hdty]] _]].
  split; [by rewrite Hname|].
  exists T. split; [exact Hty|]. congruence.
Qed.


(** X19: [get_columns] raises the error of the first row whose type fails
    to resolve and returns no partial list. *)
Theorem get_columns_first_unresolved (self_bind : Bind) (table_name : string)
  (pre post : list ColumnRow) (bad : ColumnRow) (e : PyError) :
  execute_table_columns self_bind table_name = (pre ++ bad :: post)%list ->
  Forall resolvable pre ->
  resolve_type_from_name (snd bad) = Raise e ->
  get_columns resolve_type_from_name self_bind table_name = Raise e.
Proof.
  intros Hrows Hpre Hbad. unfold get_columns. rewrite Hrows.
  destruct (pre ++ bad :: post)%list as [|row rows] eqn:Hl;
    [by destruct pre|].
  rewrite <- Hl. apply comprehension_raises.
  - apply List.Forall_forall. intros row' Hin.
    apply (proj1 (List.Forall_forall _ _) Hpre) in Hin as [T HT].
    unfold column_dict. rewrite HT. by eexists.
  - unfold column_dict. by rewrite Hbad.
Qed.
End InspectorAgree.

(** ** Connecting *)

Lemma get_or_falsy (kwargs : gmap string dbapi.PyVal) (key : string)
  (v : dbapi.PyVal) (k : string) (default : dbapi.PyVal) :
  dbapi.truthy v = false ->
  dbapi.get_or (<[key := v]> kwargs) k default =
  dbapi.get_or (delete key kwargs) k default.
Proof.
  intros Hv. unfold dbapi.get_or.
  destruct (decide (key = k)) as [-> | Hne].
  - by rewrite lookup_insert_eq, lookup_delete_eq, Hv.
  - by rewrite lookup_insert_ne, lookup_delete_ne.
Qed.

Lemma get_or_other_key (kwargs : gmap string dbapi.PyVal) (key : string)
  (v : dbapi.PyVal) (k : string) (default : dbapi.PyVal) :
  key <> k ->
  dbapi.get_or (<[key := v]> kwargs) k default =
  dbapi.get_or kwargs k default.
Proof. intros Hne. unfold dbapi.get_or. by rewrite lookup_insert_ne. Qed.

Section ConnectMore.
Context {Conn : Type}.
Variable psycopg2_connect : dbapi.ConnectArgs -> Result Conn.
Variable get_keywords_list : Conn -> Result unit.
Variable get_functions_list : Conn -> Result unit.

#[local] Abbreviation connect :=
  (dbapi.connect psycopg2_connect get_keywords_list get_functions_list).

(** X20: [connect] treats a falsy keyword argument ([None], the empty
    string, zero) as absent: the default is used in its place. *)
Theorem connect_falsy_is_absent (kwargs : gmap string dbapi.PyVal)
  (key : string) (v : dbapi.PyVal) :
  dbapi.truthy v = false ->
  connect (<[key := v]> kwargs) = connect (delete key kwargs).
Proof.
  intros Hv. unfold dbapi.connect, dbapi.connect_args.
  by rewrite !(get_or_falsy kwargs key v _ _ Hv).
Qed.

(** X21: [connect] ignores every keyword argument other than [host],
    [port], [username], [password] and [database]. *)
Theorem connect_ignores_other_keys (kwargs : gmap string dbapi.PyVal)
  (key : string) (v : dbapi.PyVal) :
  key ∉ dbapi.connect_keys ->
  connect (<[key := v]> kwargs) = connect kwargs.
Proof.
  intros Hkey. unfold dbapi.connect, dbapi.connect_args.
  rewrite !get_or_other_key; [reflexivity|..];
    intros ->; apply Hkey; unfold dbapi.connect_keys; set_solver.
Qed.
End ConnectMore.

Lemma connect_falsy_is_absent_witness :
  dbapi.connect (fun args => Ok args) (fun _ => Ok tt) (fun _ => Ok tt)
    (<["password" := dbapi.VStr ""]> (<["host" := dbapi.VStr "db"]> ∅)) =
  dbapi.connect (fun args => Ok args) (fun _ => Ok tt) (fun _ => Ok tt)
    (delete "password" (<["host" := dbapi.VStr "db"]> ∅)).
Proof.
  apply (connect_falsy_is_absent (fun args => Ok args) (fun _ => Ok tt)
           (fun _ => Ok tt)).
  reflexivity.
Defined.

Lemma connect_ignores_other_keys_witness :
  dbapi.connect (fun args => Ok args) (fun _ => Ok tt) (fun _ => Ok tt)
    (<["user" := dbapi.VStr "joe"]> ∅) =
  dbapi.connect (fun args => Ok args) (fun _ => Ok tt) (fun _ => Ok tt) ∅.
Proof.
  apply (connect_ignores_other_keys (fun args => Ok args) (fun _ => Ok tt)
           (fun _ => Ok tt)).
  unfold dbapi.connect_keys. intros H.
  repeat (apply elem_of_cons in H as [H|H]; [discriminate|]).
  by apply elem_of_nil in H.
Defined.

Example connect_empty_password :
  dbapi.password
    (dbapi.connect_args (<["password" := dbapi.VStr ""]> ∅)) =
  dbapi.VStr "quest".
Proof. reflexivity. Qed.

(** X22: [connection_uri] inserts its arguments unescaped, so a colon in
    the user name or an at-sign in the password yields the URI of other
    credentials. *)
Theorem connection_uri_not_escaped (host : string) (port : Z)
  (username password database a b : string) :
  connection_uri host port (a +:+ ":" +:+ b) password database =
    connection_uri host port a (b +:+ ":" +:+ password) database /\
  connection_uri host port username (a +:+ "@" +:+ b) database =
    connection_uri (b +:+ "@" +:+ host) port username a database.
Proof.
  unfold connection_uri. split; rewrite !append_assoc; reflexivity.
Qed.

(** ** Runs on the sample data *)

Ltac resolve_rows := repeat constructor; eexists; vm_compute; reflexivity.

Lemma visit_create_table_repeatable_witness :
  fst (visit_create_table samples.sample_column_spec
         {| element :=
              _set_parent
                (QDBTableEngine.init "trades" (Some "ts") (Some types.DAY) true)
                samples.sample_table;
            create_columns := samples.sample_columns |}) =
    Ok "CREATE TABLE 'trades' (price DOUBLE, ts TIMESTAMP) TIMESTAMP(ts) PARTITION BY DAY WAL"
  /\
  fst (visit_create_table samples.sample_column_spec
         (snd (visit_create_table samples.sample_column_spec
                 {| element :=
                      _set_parent
                        (QDBTableEngine.init "trades" (Some "ts")
                           (Some types.DAY) true)
                        samples.sample_table;
                    create_columns := samples.sample_columns |}))) =
  fst (visit_create_table samples.sample_column_spec
         {| element :=
              _set_parent
                (QDBTableEngine.init "trades" (Some "ts") (Some types.DAY) true)
                samples.sample_table;
            create_columns := samples.sample_columns |}).
Proof.
  apply (visit_create_table_repeatable samples.sample_column_spec
           samples.sample_table samples.sample_columns samples.sample_specs
           "trades" (Some "ts") (Some types.DAY) true).
  - repeat constructor; eexists; split; reflexivity.
  - split; intros _; reflexivity.
Defined.

Lemma visit_create_table_invalid_engine_witness :
  (exists msg,
     fst (visit_create_table samples.sample_column_spec
            {| element :=
                 _set_parent
                   (QDBTableEngine.init "trades" (Some "ts")
                      (Some types.NONE) true)
                   samples.sample_table;
               create_columns := samples.sample_columns |}) =
       Raise (ArgumentError msg)) /\
  fst (visit_create_table samples.sample_column_spec
         (snd (visit_create_table samples.sample_column_spec
                 {| element :=
                      _set_parent
                        (QDBTableEngine.init "trades" (Some "ts")
                           (Some types.NONE) true)
                        samples.sample_table;
                    create_columns := samples.sample_columns |}))) =
    Ok "CREATE TABLE 'trades' (price DOUBLE, ts TIMESTAMP) TIMESTAMP(ts)".
Proof.
  apply (visit_create_table_invalid_engine samples.sample_column_spec
           samples.sample_table samples.sample_columns samples.sample_specs
           "trades" (Some "ts") (Some types.NONE) true).
  - repeat constructor; eexists; split; reflexivity.
  - right. split; reflexivity.
Defined.

Lemma visit_create_table_foreign_untouched_witness :
  snd (visit_create_table samples.sample_column_spec
         {| element := element samples.sample_create;
            create_columns :=
              [ {| col_name := "n"; col_type := ForeignColumn "INTEGER";
                   primary_key := false |} ] |}) =
  {| element := element samples.sample_create;
     create_columns :=
       [ {| col_name := "n"; col_type := ForeignColumn "INTEGER";
            primary_key := false |} ] |}.
Proof.
  apply (visit_create_table_foreign_untouched samples.sample_column_spec).
  apply Exists_cons_hd. by eexists.
Defined.





Lemma reflect_table_unknown_partition_witness :
  reflect_table samples.sample_resolve upper samples.sample_bind_plain
    samples.sample_odd_table None None =
    (Raise (KeyError "QUARTER"), samples.sample_odd_table).
Proof.
  apply (reflect_table_unknown_partition samples.sample_resolve upper
           samples.sample_bind_plain samples.sample_odd_table None None
           {| designatedTimestamp := Some "ts"; partitionBy := "QUARTER";
              walEnabled := true |} []).
  - reflexivity.
  - intros []; discriminate.
Defined.

Lemma reflect_table_engine_round_trip_witness :
  exists e : QDBTableEngine.t,
    engine (snd (reflect_table samples.sample_resolve upper
                   samples.sample_bind samples.sample_table None None)) =
      Some e /\
    QDBTableEngine.compiled e = None /\
    fst (QDBTableEngine.get_table_suffix e) =
    fst (QDBTableEngine.get_table_suffix
           (QDBTableEngine.init "any" (Some "ts") (Some types.DAY) true)).
Proof.
  apply (reflect_table_engine_round_trip samples.sample_resolve upper
           samples.sample_bind samples.sample_table None None
           {| designatedTimestamp := Some "ts"; partitionBy := "DAY";
              walEnabled := true |} [] types.DAY "any").
  - reflexivity.
  - reflexivity.
  - resolve_rows.
Defined.


Example reflect_then_create_sample :
  fst (visit_create_table samples.sample_column_spec
         {| element :=
              snd (reflect_table samples.sample_resolve upper
                     samples.sample_bind samples.sample_table None None);
            create_columns :=
              columns (snd (reflect_table samples.sample_resolve upper
                              samples.sample_bind samples.sample_table
                              None None)) |}) =
  Ok "CREATE TABLE 'trades' (price DOUBLE, TS TIMESTAMP) TIMESTAMP(ts) PARTITION BY DAY WAL".
Proof. vm_compute. reflexivity. Qed.


Lemma get_columns_first_unresolved_witness :
  get_columns samples.sample_resolve samples.sample_bind_plain "events" =
    Raise (UnknownTypeError "BINARY").
Proof.
  apply (get_columns_first_unresolved samples.sample_resolve
           samples.sample_bind_plain "events" [("id", "LONG")] [("kind", "SYMBOL")]
           ("payload", "BINARY")).
  - reflexivity.
  - resolve_rows.
  - vm_compute. reflexivity.
Defined.
